(** * pydis_site API: migration 0079 and the serializers

  A shallow embedding of
  - [pydis_site/apps/api/migrations/0079_dm_embed_and_alert_fields.py]
  - [pydis_site/apps/api/serializers.py]
  and the properties of their natural-language specification.

  Python dictionaries are [gmap string pyval]; ORM tables are finite maps
  from primary key to row; code that raises returns a [result]; code that
  writes to the database threads the database explicitly. *)

From stdpp Require Import gmap strings list fin_maps.

Set Warnings "-register-all".
Set Default Proof Using "Type".

(* ===================================================================== *)
(** * Python values *)
(* ===================================================================== *)

(** The values that travel through the two source files.  [VDatetime] is a
  [datetime.datetime] (seconds since the epoch), [VRef] a model instance,
  identified by its table and primary key. *)
Inductive pyval : Type :=
| VNone
| VBool (b : bool)
| VInt (z : Z)
| VStr (s : string)
| VDatetime (ts : Z)
| VRef (table : string) (pk : Z)
| VList (l : list pyval)
| VDict (m : gmap string pyval).

(** Python truth value testing ([if x:]).  [None], [False], zero and empty
  containers are false; a [datetime] and a model instance define neither
  [__bool__] nor [__len__] and are always true. *)
Definition truthy (v : pyval) : bool :=
match v with
| VNone => false
| VBool b => b
| VInt z => negb (z =? 0)%Z
| VStr s => negb (String.eqb s "")
| VDatetime _ => true
| VRef _ _ => true
| VList l => match l with [] => false | _ => true end
| VDict m => negb (bool_decide (m = ∅))
end.

(** [d.get(k)]: the value under [k], [None] when the key is absent. *)
Definition dict_get (d : gmap string pyval) (k : string) : pyval :=
default VNone (d !! k).

(** [v in (s1, s2, ...)] for a tuple of string literals: only a [str] can be
  equal to one of them. *)
Definition in_strs (v : pyval) (t : list string) : bool :=
match v with
| VStr s => bool_decide (s ∈ t)
| _ => false
end.

(** [type(v).__name__]. *)
Definition type_name (v : pyval) : string :=
match v with
| VNone => "NoneType"
| VBool _ => "bool"
| VInt _ => "int"
| VStr _ => "str"
| VDatetime _ => "datetime"
| VRef table _ => table
| VList _ => "list"
| VDict _ => "dict"
end.

(* ===================================================================== *)
(** * Migration 0079 *)
(* ===================================================================== *)

Module Migration.

(** A [FilterList] instance as the migration sees it: the attributes the
    two functions read or assign, and the remaining columns. *)
Record FilterList : Type := {
  name : string;
  send_alert : option bool;
  dm_embed : option string;
  server_message_embed : option string;
  other_columns : gmap string pyval
}.

(** The [FilterList] table: primary key to row. *)
Abbreviation table := (gmap Z FilterList).

(** [FilterList.objects.all()]: the rows, each with its primary key. *)
Definition objects_all (t : table) : list (Z * FilterList) := map_to_list t.

(** [instance.save()], the write itself: the instance goes back under its
    primary key.  Whether the store accepts the write is [save_checked],
    below. *)
Definition save (pk : Z) (instance : FilterList) (t : table) : table :=
  <[pk := instance]> t.

Definition change_map : gmap string bool :=
  {[ "token" := true;
     "domain" := true;
     "invite" := true;
     "extension" := false;
     "redirect" := false ]}.

(** The body of the loop of [migrate_filterlist], on one instance. *)
Definition migrate_instance (filter_list : FilterList) : FilterList :=
  {| name := name filter_list;
     send_alert := change_map !! name filter_list;
     dm_embed := Some "";
     server_message_embed := server_message_embed filter_list;
     other_columns := other_columns filter_list |}.

Definition migrate_filterlist (t : table) : table :=
  foldl (λ db '(pk, filter_list), save pk (migrate_instance filter_list) db)
        t (objects_all t).

(** The body of the loop of [unmigrate_filterlist], on one instance. *)
Definition unmigrate_instance (filter_list : FilterList) : FilterList :=
  {| name := name filter_list;
     send_alert := Some true;
     dm_embed := dm_embed filter_list;
     server_message_embed := None;
     other_columns := other_columns filter_list |}.

Definition unmigrate_filterlist (t : table) : table :=
  foldl (λ db '(pk, filter_list), save pk (unmigrate_instance filter_list) db)
        t (objects_all t).

(** Model fields, with the options the migration passes.  Django's
    defaults are [null=False] and no default value. *)
Inductive field_class : Type :=
  | BooleanField
  | CharField (max_length : N).

Record Field : Type := {
  field_type : field_class;
  null : bool;
  default_value : option pyval;
  help_text : string
}.

Inductive operation : Type :=
  | AddField (model_name : string) (field_name : string) (field : Field)
  | RunPython (code reverse_code : table → table).

Definition operations : list operation :=
  [ AddField "filter" "send_alert"
      {| field_type := BooleanField; null := true; default_value := None;
         help_text := "Whether alert should be sent." |};
    AddField "filter" "dm_embed"
      {| field_type := CharField 2000; null := true; default_value := None;
         help_text := "The content of the DM embed" |};
    AddField "filterlist" "send_alert"
      {| field_type := BooleanField; null := false;
         default_value := Some (VBool true);
         help_text := "Whether alert should be sent." |};
    AddField "filterlist" "dm_embed"
      {| field_type := CharField 2000; null := true; default_value := None;
         help_text := "The content of the DM embed" |};
    RunPython migrate_filterlist unmigrate_filterlist ].

(** The column a list of operations adds under a model and a name. *)
Fixpoint added_field (ops : list operation) (model column : string)
  : option Field :=
  match ops with
  | [] => None
  | AddField m c f :: ops' =>
      if bool_decide (m = model ∧ c = column) then Some f
      else added_field ops' model column
  | RunPython _ _ :: ops' => added_field ops' model column
  end.

(** Every (model, column) pair the operations add, in order. *)
Definition added_columns (ops : list operation) : list (string * string) :=
  omap (λ op, match op with
              | AddField m c _ => Some (m, c)
              | RunPython _ _ => None
              end) ops.

(** The data steps ([RunPython]) of a list of operations, run forwards with
    [code] and backwards, last operation first, with [reverse_code].  The
    schema steps are read off by [added_field]. *)
Definition forward_data (ops : list operation) (t : table) : table :=
  foldl (λ db op, match op with
                  | RunPython code _ => code db
                  | AddField _ _ _ => db
                  end) t ops.

Definition backward_data (ops : list operation) (t : table) : table :=
  foldl (λ db op, match op with
                  | RunPython _ reverse_code => reverse_code db
                  | AddField _ _ _ => db
                  end) t (reverse ops).

End Migration.

(* ===================================================================== *)
(** * Exceptions *)
(* ===================================================================== *)

(** The value a [ValidationError] holds under a field name: the source
    passes either a list of messages or one bare message. *)
Inductive error_detail : Type :=
| ErrorString (message : string)
| ErrorList (messages : list string).

Inductive exception : Type :=
| ValidationError (detail : gmap string error_detail)
| KeyError (key : string)
| TypeError (message : string)
| AttributeError (attribute : string)
| DoesNotExist (table : string)
| IntegrityError (column : string).

Inductive result (A : Type) : Type :=
| Return (a : A)
| Raise (e : exception).
Arguments Return {A} a.
Arguments Raise {A} e.

(** Sequencing: the first exception raised ends the computation.  The
    instances give [result] the notations [x ← r; k] and [r;; k]. *)
Definition result_bind {A B} (k : A → result B) (r : result A) : result B :=
match r with
| Return a => k a
| Raise e => Raise e
end.

#[global] Instance result_mret : MRet result := @Return.
#[global] Instance result_mbind : MBind result := @result_bind.

(** [f'{v}'] for a [str] is the string itself.  The sources format only
    values that have just been found in a tuple of string literals (see
    [in_strs]), so the other case is never reached. *)
Definition format_value (v : pyval) : string :=
match v with
| VStr s => s
| _ => type_name v
end.

(* ===================================================================== *)
(** * The store's constraints on FilterList *)
(* ===================================================================== *)

(** Whether the schema lets a column hold null.  A column the migration
    adds with [null=False] does not; of any other column the sources say
    nothing, and no constraint is assumed. *)
Definition accepts_null (model column : string) : bool :=
match Migration.added_field Migration.operations model column with
| Some field => Migration.null field
| None => true
end.

(** The first column of an instance that holds null against the schema. *)
Definition null_violation (instance : Migration.FilterList) : option string :=
if negb (accepts_null "filterlist" "send_alert")
   && bool_decide (Migration.send_alert instance = None)
then Some "send_alert"
else if negb (accepts_null "filterlist" "dm_embed")
        && bool_decide (Migration.dm_embed instance = None)
then Some "dm_embed"
else None.

(** [instance.save()] against the store: a null in a column that is NOT
    NULL is refused with an [IntegrityError], and nothing is written. *)
Definition save_checked (pk : Z) (instance : Migration.FilterList)
    (t : gmap Z Migration.FilterList) : result (gmap Z Migration.FilterList) :=
match null_violation instance with
| Some column => Raise (IntegrityError column)
| None => Return (Migration.save pk instance t)
end.

(** The loop of the two data steps against the store: every instance is
    updated and saved in turn; the first refused save ends the step with
    its exception.  What the store keeps of an abandoned step is decided by
    the transaction of the migration executor, outside these sources. *)
Fixpoint save_each (update : Migration.FilterList → Migration.FilterList)
    (instances : list (Z * Migration.FilterList))
    (t : gmap Z Migration.FilterList) : result (gmap Z Migration.FilterList) :=
match instances with
| [] => Return t
| (pk, filter_list) :: instances' =>
    t' ← save_checked pk (update filter_list) t;
    save_each update instances' t'
end.

Definition migrate_filterlist_checked (t : gmap Z Migration.FilterList)
  : result (gmap Z Migration.FilterList) :=
save_each Migration.migrate_instance (Migration.objects_all t) t.

Definition unmigrate_filterlist_checked (t : gmap Z Migration.FilterList)
  : result (gmap Z Migration.FilterList) :=
save_each Migration.unmigrate_instance (Migration.objects_all t) t.

(* ===================================================================== *)
(** * The database behind the ORM *)
(* ===================================================================== *)

Record row : Type := {
  row_table : string;
  row_pk : Z;
  row_attrs : gmap string pyval
}.

(** The rows of every table, oldest first. *)
Abbreviation database := (list row).

Definition rows_of (table : string) (db : database) : list row :=
filter (λ r, row_table r = table) db.

(** Modelled from the spec: identity is server-assigned (models.py and the
    store's key sequence are not among the sources).  The spec does not say
    which key the store hands out; this stand-in takes one past the largest
    key of the table, as a sequence does while no row has been deleted. *)
Definition next_pk (table : string) (db : database) : Z :=
(foldr Z.max 0 (row_pk <$> rows_of table db) + 1)%Z.

(** Code that reads or writes the database and may raise.  An exception
    leaves the rows written so far in place: the source opens no
    transaction of its own. *)
Definition orm (A : Type) : Type := database → result A * database.

Definition orm_ret {A} (a : A) : orm A := λ db, (Return a, db).

Definition orm_bind {A B} (k : A → orm B) (m : orm A) : orm B :=
λ db, match m db with
      | (Return a, db') => k a db'
      | (Raise e, db') => (Raise e, db')
      end.

#[global] Instance orm_mret : MRet orm := @orm_ret.
#[global] Instance orm_mbind : MBind orm := @orm_bind.

(** Code that does not touch the database, run inside [orm]. *)
Definition orm_lift {A} (r : result A) : orm A := λ db, (r, db).

(** [Model.objects.create], called with keyword arguments [kwargs]: insert
    one row and return the new instance.  The keyword arguments are taken
    to be what the serializers validated; the refusals of the model and of
    the store (a keyword that is no field, a value out of range) are not
    part of this model. *)
Definition objects_create (table : string) (kwargs : gmap string pyval)
  : orm pyval :=
λ db, let pk := next_pk table db in
      (Return (VRef table pk),
       db ++ [{| row_table := table; row_pk := pk; row_attrs := kwargs |}]).

(** [Model.objects.get(id=v)]: the row of that key; a key that is not an
    integer is refused. *)
Definition objects_get (table : string) (v : pyval) (db : database)
  : result row :=
match v with
| VInt pk =>
    match list_find (λ r, row_table r = table ∧ row_pk r = pk) db with
    | Some (_, r) => Return r
    | None => Raise (DoesNotExist table)
    end
| VNone => Raise (DoesNotExist table)
| _ => Raise (TypeError "Field 'id' expected a number")
end.

(** [for x in v]: the elements a [for] loop visits. *)
Definition iterate (v : pyval) : result (list pyval) :=
match v with
| VList l => Return l
| VStr s => Return ((λ c, VStr (String c EmptyString)) <$> String.list_ascii_of_string s)
| VDict m => Return (VStr <$> (map_to_list m).*1)
| _ => Raise (TypeError ("'" ++ type_name v ++ "' object is not iterable")%string)
end.

(** [d.pop(key)]: the value, and the dictionary without the key. *)
Definition dict_pop (d : gmap string pyval) (key : string)
  : result (pyval * gmap string pyval) :=
match d !! key with
| Some v => Return (v, delete key d)
| None => Raise (KeyError key)
end.

(** The keyword arguments of a call [f(key=value, **star)]: [star] must be a
    mapping, and a key given both ways is a [TypeError]. *)
Definition keyword_arguments (key : string) (value : pyval) (star : pyval)
  : result (gmap string pyval) :=
match star with
| VDict m =>
    match m !! key with
    | Some _ =>
        Raise (TypeError
                 ("got multiple values for keyword argument '" ++ key ++ "'")%string)
    | None => Return (<[key := value]> m)
    end
| _ => Raise (TypeError "argument after ** must be a mapping")
end.

(** A [for] loop whose body may raise. *)
Fixpoint for_each {A} (l : list A) (body : A → orm unit) : orm unit :=
match l with
| [] => mret tt
| x :: l' => body x;; for_each l' body
end.

(* ===================================================================== *)
(** * The serializers *)
(* ===================================================================== *)

(** The serializer classes of serializers.py. *)
Inductive serializer : Type :=
| BotSettingSerializer
| DeletedMessageSerializer
| MessageDeletionContextSerializer
| DocumentationLinkSerializer
| InfractionSerializer
| ExpandedInfractionSerializer
| LogEntrySerializer
| OffTopicChannelNameSerializer
| SnakeFactSerializer
| SnakeIdiomSerializer
| SnakeNameSerializer
| SpecialSnakeSerializer
| ReminderSerializer
| RoleSerializer
| TagSerializer
| UserSerializer
| NominationSerializer.

(** [Meta.fields]; [ExpandedInfractionSerializer] inherits its parent's. *)
Definition Meta_fields (s : serializer) : list string :=
match s with
| BotSettingSerializer => ["name"; "data"]
| DeletedMessageSerializer =>
    ["id"; "author"; "channel_id"; "content"; "embeds"; "deletion_context"]
| MessageDeletionContextSerializer =>
    ["actor"; "creation"; "id"; "deletedmessage_set"]
| DocumentationLinkSerializer => ["package"; "base_url"; "inventory_url"]
| InfractionSerializer | ExpandedInfractionSerializer =>
    ["id"; "inserted_at"; "expires_at"; "active"; "user"; "actor"; "type";
     "reason"; "hidden"]
| LogEntrySerializer =>
    ["application"; "logger_name"; "timestamp"; "level"; "module"; "line";
     "message"]
| OffTopicChannelNameSerializer => ["name"]
| SnakeFactSerializer => ["fact"]
| SnakeIdiomSerializer => ["idiom"]
| SnakeNameSerializer => ["name"; "scientific"]
| SpecialSnakeSerializer => ["name"; "images"; "info"]
| ReminderSerializer =>
    ["active"; "author"; "channel_id"; "content"; "expiration"; "id"]
| RoleSerializer => ["id"; "name"; "colour"; "permissions"]
| TagSerializer => ["title"; "embed"]
| UserSerializer =>
    ["id"; "avatar_hash"; "name"; "discriminator"; "roles"; "in_guild"]
| NominationSerializer =>
    ["id"; "active"; "actor"; "reason"; "user"; "inserted_at";
     "unnominate_reason"; "unwatched_at"]
end.

(** ** Custom validation *)

Definition InfractionSerializer_validate (attrs : gmap string pyval)
  : result (gmap string pyval) :=
let infr_type := dict_get attrs "type" in
let expires_at := dict_get attrs "expires_at" in
if truthy expires_at && in_strs infr_type ["kick"; "warning"] then
  Raise (ValidationError
           {[ "expires_at" :=
                ErrorList [(format_value infr_type ++ " infractions cannot expire.")%string] ]})
else
  let hidden := dict_get attrs "hidden" in
  if truthy hidden && in_strs infr_type ["superstar"] then
    Raise (ValidationError
             {[ "hidden" :=
                  ErrorList [(format_value infr_type ++ " infractions cannot be hidden.")%string] ]})
  else Return attrs.

Definition NominationSerializer_validate (attrs : gmap string pyval)
  : result (gmap string pyval) :=
let active := dict_get attrs "active" in
let unnominate_reason := dict_get attrs "unnominate_reason" in
if truthy active && truthy unnominate_reason then
  Raise (ValidationError
           {[ "unnominate_reason" :=
                ErrorString "An active nomination can't have an unnominate reason" ]})
else Return attrs.

(** Modelled from the spec: models.py is not among the sources.
    [expires_at] is a timestamp that may be null, so what the field hands to
    [validate] under that key is [None] or a [datetime]. *)
Definition expires_at_well_typed (attrs : gmap string pyval) : Prop :=
∀ v, attrs !! "expires_at" = Some v → v = VNone ∨ ∃ ts, v = VDatetime ts.

(** [validate] of each class; a class that does not define it inherits the
    base method, which returns [attrs]. *)
Definition validate (s : serializer) (attrs : gmap string pyval)
  : result (gmap string pyval) :=
match s with
| InfractionSerializer | ExpandedInfractionSerializer =>
    InfractionSerializer_validate attrs
| NominationSerializer => NominationSerializer_validate attrs
| _ => Return attrs
end.

(** ** Nested creation *)

(** The body of the loop of [create]:
    [DeletedMessage.objects.create(deletion_context=deletion_context, **message)]. *)
Definition create_message (deletion_context : pyval) (message : pyval)
  : orm unit :=
kwargs ← orm_lift (keyword_arguments "deletion_context" deletion_context message);
objects_create "DeletedMessage" kwargs;;
mret tt.

Definition MessageDeletionContextSerializer_create
    (validated_data : gmap string pyval) : orm pyval :=
'(messages, validated_data) ← orm_lift (dict_pop validated_data "deletedmessage_set");
deletion_context ← objects_create "MessageDeletionContext" validated_data;
items ← orm_lift (iterate messages);
for_each items (create_message deletion_context);;
mret deletion_context.

(** A stored row is the message [m] linked to [deletion_context]. *)
Definition linked_to (deletion_context : pyval) (m : gmap string pyval) (r : row)
  : Prop :=
row_table r = "DeletedMessage"
∧ row_attrs r = <["deletion_context" := deletion_context]> m.

(** ** Representation *)

(** What a field object of a serializer answers for one input value. *)
Inductive field_outcome : Type :=
| Validated (v : pyval)
| SkipField
| Invalid (messages : list string).

(** The field objects of the serializers.  The framework builds them from
    the models (models.py is not among the sources) and from the declared
    [PrimaryKeyRelatedField]s, so they are a parameter here: how a field
    renders a value, what it makes of a received value ([None] when the
    payload has no such key), and whether it is read-only. *)
Class Fields : Type := {
  field_to_representation : serializer → string → pyval → pyval;
  field_run_validation : serializer → string → option pyval → field_outcome;
  read_only : serializer → string → bool
}.

(** [instance.attribute]. *)
Definition getattr (instance : gmap string pyval) (attribute : string)
  : result pyval :=
match instance !! attribute with
| Some v => Return v
| None => Raise (AttributeError attribute)
end.

(** [d[key]]. *)
Definition dict_getitem (d : gmap string pyval) (key : string) : result pyval :=
match d !! key with
| Some v => Return v
| None => Raise (KeyError key)
end.

(** How the inherited [to_representation] renders one attribute: [None] as
    [None], any other value by its field. *)
Definition render `{Fields} (s : serializer) (f : string) (attribute : pyval)
  : pyval :=
match attribute with
| VNone => VNone
| _ => field_to_representation s f attribute
end.

(** The inherited [to_representation]: one key per declared field. *)
Fixpoint represent_fields `{Fields} (s : serializer)
    (instance : gmap string pyval) (fields : list string)
    (ret : gmap string pyval) : result (gmap string pyval) :=
match fields with
| [] => Return ret
| f :: fields' =>
    attribute ← getattr instance f;
    represent_fields s instance fields' (<[f := render s f attribute]> ret)
end.

Definition ModelSerializer_to_representation `{Fields} (s : serializer)
    (instance : gmap string pyval) : result (gmap string pyval) :=
represent_fields s instance (Meta_fields s) ∅.

(** The attributes of a stored row, as an instance has them. *)
Definition instance_of (r : row) : gmap string pyval :=
<["id" := VInt (row_pk r)]> (row_attrs r).

Definition OffTopicChannelNameSerializer_to_representation
    (obj : gmap string pyval) : result pyval :=
getattr obj "name".

Definition ExpandedInfractionSerializer_to_representation `{Fields}
    (db : database) (instance : gmap string pyval)
  : result (gmap string pyval) :=
ret ← ModelSerializer_to_representation ExpandedInfractionSerializer instance;
user_id ← dict_getitem ret "user";
user ← objects_get "User" user_id db;
user_data ← ModelSerializer_to_representation UserSerializer (instance_of user);
let ret := <["user" := VDict user_data]> ret in
actor_id ← dict_getitem ret "actor";
actor ← objects_get "User" actor_id db;
actor_data ← ModelSerializer_to_representation UserSerializer (instance_of actor);
let ret := <["actor" := VDict actor_data]> ret in
mret ret.

Definition to_representation `{Fields} (db : database) (s : serializer)
    (instance : gmap string pyval) : result pyval :=
match s with
| OffTopicChannelNameSerializer =>
    OffTopicChannelNameSerializer_to_representation instance
| ExpandedInfractionSerializer =>
    ret ← ExpandedInfractionSerializer_to_representation db instance;
    mret (VDict ret)
| _ =>
    ret ← ModelSerializer_to_representation s instance;
    mret (VDict ret)
end.

(** ** Validation of a received representation *)

(** The inherited [to_internal_value] on a mapping: every writable field
    validates its own key; the errors of all fields are collected. *)
Fixpoint internalise_fields `{Fields} (s : serializer)
    (data : gmap string pyval) (fields : list string)
    (ret : gmap string pyval) (errors : gmap string error_detail)
  : gmap string pyval * gmap string error_detail :=
match fields with
| [] => (ret, errors)
| f :: fields' =>
    if read_only s f then internalise_fields s data fields' ret errors
    else
      match field_run_validation s f (data !! f) with
      | Validated v => internalise_fields s data fields' (<[f := v]> ret) errors
      | SkipField => internalise_fields s data fields' ret errors
      | Invalid messages =>
          internalise_fields s data fields' ret (<[f := ErrorList messages]> errors)
      end
end.

Definition to_internal_value `{Fields} (s : serializer) (data : pyval)
  : result (gmap string pyval) :=
match data with
| VDict m =>
    let '(ret, errors) := internalise_fields s m (Meta_fields s) ∅ ∅ in
    if bool_decide (errors = ∅) then Return ret
    else Raise (ValidationError errors)
| _ =>
    Raise (ValidationError
             {[ "non_field_errors" :=
                  ErrorList [("Invalid data. Expected a dictionary, but got "
                              ++ type_name data ++ ".")%string] ]})
end.

(** The framework re-raises what [validate] raised with every bare value
    wrapped in a list. *)
Definition as_serializer_error (e : exception) : exception :=
match e with
| ValidationError detail =>
    ValidationError ((λ value, match value with
                               | ErrorString message => ErrorList [message]
                               | ErrorList messages => ErrorList messages
                               end) <$> detail)
| _ => e
end.

Definition run_validation `{Fields} (s : serializer) (data : pyval)
  : result (gmap string pyval) :=
value ← to_internal_value s data;
match validate s value with
| Return value => Return value
| Raise e => Raise (as_serializer_error e)
end.

(** Serialize an instance, then validate the representation back. *)
Definition round_trip `{Fields} (db : database) (s : serializer)
    (instance : gmap string pyval) : result (gmap string pyval) :=
representation ← to_representation db s instance;
run_validation s representation.

(** The attributes of an instance under the writable declared fields. *)
Definition writable_attrs `{Fields} (s : serializer)
    (instance : gmap string pyval) : gmap string pyval :=
filter (λ kv, kv.1 ∈ Meta_fields s ∧ read_only s kv.1 = false) instance.

(** Every value of an error mapping is a list of messages. *)
Definition list_valued (detail : gmap string error_detail) : Prop :=
∀ field value, detail !! field = Some value → ∃ messages, value = ErrorList messages.

(* ===================================================================== *)
(** * Sample data *)
(* ===================================================================== *)

(** Field objects that render a value as it is, accept any received value,
    skip a missing key and keep only [id] read-only. *)
Definition plain_fields : Fields :=
{| field_to_representation := λ _ _ v, v;
   field_run_validation := λ _ _ received,
     match received with
     | Some v => Validated v
     | None => SkipField
     end;
   read_only := λ _ f, bool_decide (f = "id") |}.

Definition general_chat : gmap string pyval :=
{[ "name" := VStr "general-chat" ]}.

Definition bot_setting : gmap string pyval :=
{[ "name" := VStr "defcon"; "data" := VDict {[ "enabled" := VBool false ]} ]}.

Definition kick_with_expiry : gmap string pyval :=
{[ "type" := VStr "kick"; "expires_at" := VDatetime 1640000000;
   "user" := VRef "User" 5; "actor" := VRef "User" 9 ]}.

Definition ended_nomination : gmap string pyval :=
{[ "active" := VBool false; "unnominate_reason" := VStr "left the server" ]}.

Definition active_nomination_with_reason : gmap string pyval :=
{[ "active" := VBool true; "unnominate_reason" := VStr "left" ]}.

(** The validated form of the payload
    [{actor: 1, deletedmessage_set: [{author: 2, channel_id: 100, content: "hi", embeds: []}]}]. *)
Definition hi_message : gmap string pyval :=
{[ "author" := VRef "User" 2; "channel_id" := VInt 100;
   "content" := VStr "hi"; "embeds" := VList [] ]}.

Definition scenario_payload : gmap string pyval :=
{[ "actor" := VRef "User" 1; "deletedmessage_set" := VList [VDict hi_message] ]}.

(** The same payload, its message also naming an existing deletion
    context, as [DeletedMessageSerializer] allows. *)
Definition earlier_context : row :=
{| row_table := "MessageDeletionContext"; row_pk := 1;
   row_attrs := {[ "actor" := VRef "User" 1 ]} |}.

Definition payload_naming_context : gmap string pyval :=
{[ "actor" := VRef "User" 1;
   "deletedmessage_set" :=
     VList [VDict (<["deletion_context" := VRef "MessageDeletionContext" 1]>
                     hi_message)] ]}.

(** Two users and an infraction of the first by the second. *)
Definition user_row (pk : Z) (user_name : string) : row :=
{| row_table := "User"; row_pk := pk;
   row_attrs := {[ "avatar_hash" := VNone; "name" := VStr user_name;
                   "discriminator" := VInt 1; "roles" := VList [];
                   "in_guild" := VBool true ]} |}.

Definition two_users : list row := [user_row 5 "lemon"; user_row 9 "joe"].

Definition superstar_infraction : gmap string pyval :=
{[ "id" := VInt 3; "inserted_at" := VDatetime 1639000000;
   "expires_at" := VDatetime 1640000000; "active" := VBool true;
   "user" := VInt 5; "actor" := VInt 9; "type" := VStr "superstar";
   "reason" := VNone; "hidden" := VBool false ]}.

Definition custom_filter_list : Migration.FilterList :=
{| Migration.name := "custom";
   Migration.send_alert := Some true;
   Migration.dm_embed := None;
   Migration.server_message_embed := Some "{}";
   Migration.other_columns := ∅ |}.

Definition mapped_table : gmap Z Migration.FilterList :=
{[ 1%Z := {| Migration.name := "token";
             Migration.send_alert := None;
             Migration.dm_embed := None;
             Migration.server_message_embed := None;
             Migration.other_columns := ∅ |};
   2%Z := {| Migration.name := "redirect";
             Migration.send_alert := Some true;
             Migration.dm_embed := Some "old";
             Migration.server_message_embed := None;
             Migration.other_columns := ∅ |} ]}.

Definition sample_table : gmap Z Migration.FilterList :=
{[ 1%Z := {| Migration.name := "token";
             Migration.send_alert := None;
             Migration.dm_embed := None;
             Migration.server_message_embed := None;
             Migration.other_columns := ∅ |};
   7%Z := custom_filter_list ]}.

(* ===================================================================== *)
(** * Properties of migration 0079 *)
(* ===================================================================== *)

Section migration_loops.
Import Migration.

(** A loop that saves [f row] for every row of a snapshot leaves, under
    each key, either the updated snapshot row or what was there before. *)
Lemma save_loop_lookup (f : FilterList → FilterList)
    (l : list (Z * FilterList)) (db : table) (i : Z) :
  NoDup l.*1 →
  foldl (λ db '(pk, r), save pk (f r) db) db l !! i
  = match list_to_map (M := table) l !! i with
    | Some r => Some (f r)
    | None => db !! i
    end.
Proof.
  revert db. induction l as [|[pk r] l IH]; intros db Hnd; [done|].
  apply NoDup_cons in Hnd as [Hpk Hnd]. simpl.
  rewrite IH by done. unfold save.
  destruct (decide (pk = i)) as [->|Hne].
  - rewrite lookup_insert_eq.
    rewrite (not_elem_of_list_to_map_1 (M := gmap Z) l i Hpk).
    by rewrite lookup_insert_eq.
  - rewrite !(lookup_insert_ne _ pk i) by done. done.
Qed.

Lemma save_loop_fmap (f : FilterList → FilterList) (t : table) :
  foldl (λ db '(pk, r), save pk (f r) db) t (objects_all t) = f <$> t.
Proof.
  apply map_eq. intros i. unfold objects_all.
  rewrite save_loop_lookup by apply NoDup_fst_map_to_list.
  rewrite list_to_map_to_list, lookup_fmap.
  by destruct (t !! i).
Qed.

End migration_loops.

Section migration_properties.
Import Migration.

(** [change_map.get(name)], spelled out. *)
Lemma change_map_lookup (n : string) :
  change_map !! n
  = if bool_decide (n ∈ ["token"; "domain"; "invite"]) then Some true
    else if bool_decide (n ∈ ["extension"; "redirect"]) then Some false
    else None.
Proof.
  unfold change_map.
  repeat (rewrite lookup_insert; case_decide; [subst; reflexivity|]).
  rewrite lookup_singleton; case_decide; [subst; reflexivity|].
  rewrite !bool_decide_eq_false_2; [done|..];
    rewrite !elem_of_cons, elem_of_nil; intuition congruence.
Qed.

Lemma migrate_filterlist_fmap (t : table) :
  migrate_filterlist t = migrate_instance <$> t.
Proof. apply save_loop_fmap. Qed.

Lemma unmigrate_filterlist_fmap (t : table) :
  unmigrate_filterlist t = unmigrate_instance <$> t.
Proof. apply save_loop_fmap. Qed.

Lemma forward_data_operations (t : table) :
  forward_data operations t = migrate_filterlist t.
Proof. reflexivity. Qed.

Lemma backward_data_operations (t : table) :
  backward_data operations t = unmigrate_filterlist t.
Proof. reflexivity. Qed.

Lemma send_alert_is_not_null : accepts_null "filterlist" "send_alert" = false.
Proof. reflexivity. Qed.

Lemma dm_embed_accepts_null : accepts_null "filterlist" "dm_embed" = true.
Proof. reflexivity. Qed.

(** The forward update of an instance is refused by the store exactly when
    the name of the instance is none of the five of [change_map]. *)
Lemma null_violation_migrate (fl : FilterList) :
  null_violation (migrate_instance fl)
  = if decide (name fl ∈ ["token"; "domain"; "invite"; "extension"; "redirect"])
    then None else Some "send_alert".
Proof.
  unfold null_violation.
  rewrite send_alert_is_not_null, dm_embed_accepts_null. simpl.
  rewrite change_map_lookup.
  assert (Hfive : name fl ∈ ["token"; "domain"; "invite"; "extension"; "redirect"]
                  ↔ name fl ∈ ["token"; "domain"; "invite"]
                    ∨ name fl ∈ ["extension"; "redirect"]).
  { rewrite !elem_of_cons, elem_of_nil. tauto. }
  case_decide as Hin; rewrite Hfive in Hin;
    repeat case_bool_decide; try done; tauto.
Qed.

Lemma null_violation_unmigrate (fl : FilterList) :
  null_violation (unmigrate_instance fl) = None.
Proof.
  unfold null_violation. by rewrite send_alert_is_not_null, dm_embed_accepts_null.
Qed.

(** When the store accepts every update, the loop against the store does
    what the loop of writes does. *)
Lemma save_each_accepted (f : FilterList → FilterList)
    (l : list (Z * FilterList)) (t : table) :
  (∀ pk fl, (pk, fl) ∈ l → null_violation (f fl) = None) →
  save_each f l t = Return (foldl (λ db '(pk, r), save pk (f r) db) t l).
Proof.
  revert t. induction l as [|[pk fl] l IH]; intros t Hok; [done|].
  simpl. unfold save_checked. rewrite (Hok pk fl) by apply list_elem_of_here.
  unfold mbind, result_mbind, result_bind.
  apply IH. intros pk' fl' Hin. apply (Hok pk' fl'). by apply list_elem_of_further.
Qed.

(** When the store refuses some update, always on the same column, the
    loop against the store ends with that refusal. *)
Lemma save_each_refused (f : FilterList → FilterList)
    (l : list (Z * FilterList)) (t : table) (column : string) :
  (∀ pk fl, (pk, fl) ∈ l →
     null_violation (f fl) = None ∨ null_violation (f fl) = Some column) →
  (∃ pk fl, (pk, fl) ∈ l ∧ null_violation (f fl) = Some column) →
  save_each f l t = Raise (IntegrityError column).
Proof.
  revert t. induction l as [|[pk fl] l IH]; intros t Hall (pk' & fl' & Hin & Hbad).
  - by apply elem_of_nil in Hin.
  - simpl. unfold save_checked.
    destruct (Hall pk fl) as [Hok|Hrefused]; [apply list_elem_of_here|..].
    + rewrite Hok. unfold mbind, result_mbind, result_bind. apply IH.
      * intros pk'' fl'' Hin''. apply (Hall pk'' fl''). by apply list_elem_of_further.
      * apply elem_of_cons in Hin as [[= -> ->]|Hin]; [congruence|eauto].
    + by rewrite Hrefused.
Qed.

Lemma migrate_checked_mapped (t : table) :
  (∀ pk fl, t !! pk = Some fl →
     name fl ∈ ["token"; "domain"; "invite"; "extension"; "redirect"]) →
  migrate_filterlist_checked t = Return (migrate_filterlist t).
Proof.
  intros Hmapped. unfold migrate_filterlist_checked, migrate_filterlist.
  apply save_each_accepted. intros pk fl Hin%elem_of_map_to_list.
  rewrite null_violation_migrate. by rewrite decide_True by eauto.
Qed.

Lemma migrate_checked_unmapped (t : table) (pk : Z) (fl : FilterList) :
  t !! pk = Some fl →
  name fl ∉ ["token"; "domain"; "invite"; "extension"; "redirect"] →
  migrate_filterlist_checked t = Raise (IntegrityError "send_alert").
Proof.
  intros Hrow Hout. unfold migrate_filterlist_checked.
  apply save_each_refused.
  - intros pk' fl' _. rewrite null_violation_migrate. case_decide; auto.
  - exists pk, fl. split; [by apply elem_of_map_to_list|].
    rewrite null_violation_migrate. by rewrite decide_False.
Qed.

Lemma unmigrate_checked_accepted (t : table) :
  unmigrate_filterlist_checked t = Return (unmigrate_filterlist t).
Proof.
  unfold unmigrate_filterlist_checked, unmigrate_filterlist.
  apply save_each_accepted. intros pk fl _. apply null_violation_unmigrate.
Qed.

(** C1, as the code has it.  When the name of every row of the
    [FilterList] table is one of the five names of the lookup, the forward
    data step runs to completion, and afterwards every row is still there
    under its key, with [send_alert] set from its name (token, domain,
    invite: true; extension, redirect: false) and [dm_embed] set to the
    empty string. *)
Theorem forward_backfill_mapped (t : table) :
  (∀ pk fl, t !! pk = Some fl →
     name fl ∈ ["token"; "domain"; "invite"; "extension"; "redirect"]) →
  ∃ t', migrate_filterlist_checked t = Return t'
    ∧ t' = forward_data operations t
    ∧ ∀ pk fl, t !! pk = Some fl →
        ∃ fl', t' !! pk = Some fl'
          ∧ name fl' = name fl
          ∧ send_alert fl'
            = (if bool_decide (name fl ∈ ["token"; "domain"; "invite"])
               then Some true else Some false)
          ∧ dm_embed fl' = Some "".
Proof.
  intros Hmapped. exists (migrate_filterlist t).
  split; [by apply migrate_checked_mapped|]. split; [done|].
  intros pk fl Hrow. exists (migrate_instance fl).
  rewrite migrate_filterlist_fmap, lookup_fmap, Hrow.
  repeat split. simpl. rewrite change_map_lookup.
  specialize (Hmapped pk fl Hrow).
  repeat case_bool_decide; try done.
  exfalso. rewrite !elem_of_cons in *. tauto.
Qed.

(** C1, as stated, fails on a row whose name the lookup does not hold: the
    store refuses the null [send_alert], the forward step ends with an
    [IntegrityError], and no table with a null [send_alert] comes out. *)
Lemma forward_unmapped_name_raises :
  sample_table !! 7%Z = Some custom_filter_list
  ∧ name custom_filter_list = "custom"
  ∧ migrate_filterlist_checked sample_table = Raise (IntegrityError "send_alert")
  ∧ ¬ (∃ t' fl', migrate_filterlist_checked sample_table = Return t'
         ∧ t' !! 7%Z = Some fl' ∧ send_alert fl' = None).
Proof.
  assert (Hraises : migrate_filterlist_checked sample_table
                    = Raise (IntegrityError "send_alert")).
  { apply (migrate_checked_unmapped sample_table 7 custom_filter_list);
      [reflexivity|].
    simpl. rewrite !elem_of_cons, elem_of_nil.
    intros [?|[?|[?|[?|[?|[]]]]]]; discriminate. }
  split; [reflexivity|]. split; [reflexivity|]. split; [exact Hraises|].
  intros (t' & fl' & Hreturn & _). rewrite Hraises in Hreturn. discriminate.
Qed.

(** C8. After the reverse data step of the migration, every row of the
    [FilterList] table has [send_alert] true and [server_message_embed]
    null, whatever the two held before. *)
Theorem backward_reset (t : table) (pk : Z) (fl : FilterList) :
  t !! pk = Some fl →
  ∃ fl', backward_data operations t !! pk = Some fl'
    ∧ name fl' = name fl
    ∧ send_alert fl' = Some true
    ∧ server_message_embed fl' = None.
Proof.
  intros Hrow. exists (unmigrate_instance fl).
  rewrite backward_data_operations, unmigrate_filterlist_fmap, lookup_fmap, Hrow.
  done.
Qed.

(** C9. The forward backfill is idempotent: on one row, and on the whole
    table, running it a second time changes nothing. *)
Theorem forward_idempotent (t : table) (fl : FilterList) :
  migrate_instance (migrate_instance fl) = migrate_instance fl
  ∧ forward_data operations (forward_data operations t)
    = forward_data operations t.
Proof.
  assert (Hone : ∀ r, migrate_instance (migrate_instance r) = migrate_instance r)
    by done.
  split; [apply Hone|].
  rewrite !forward_data_operations, !migrate_filterlist_fmap.
  rewrite <- map_fmap_compose. apply map_fmap_ext. intros i r _. apply Hone.
Qed.

(** C7, as the code has it.  The migration adds exactly four columns.  On
    [Filter], [send_alert] is a nullable boolean and [dm_embed] a nullable
    text of at most 2000 characters; on [FilterList], [dm_embed] is the
    same, and [send_alert] is a boolean that is not nullable and defaults to
    true. *)
Theorem added_columns_shape :
  added_columns operations
  = [("filter", "send_alert"); ("filter", "dm_embed");
     ("filterlist", "send_alert"); ("filterlist", "dm_embed")]
  ∧ (∃ f, added_field operations "filter" "send_alert" = Some f
        ∧ field_type f = BooleanField ∧ null f = true
        ∧ default_value f = None)
  ∧ (∃ f, added_field operations "filter" "dm_embed" = Some f
        ∧ field_type f = CharField 2000 ∧ null f = true)
  ∧ (∃ f, added_field operations "filterlist" "send_alert" = Some f
        ∧ field_type f = BooleanField ∧ null f = false
        ∧ default_value f = Some (VBool true))
  ∧ (∃ f, added_field operations "filterlist" "dm_embed" = Some f
        ∧ field_type f = CharField 2000 ∧ null f = true).
Proof. repeat split; eexists; repeat split; reflexivity. Qed.

(** C7, as stated, fails: [send_alert] is not nullable on both models. *)
Lemma send_alert_not_nullable_on_filterlist :
  ¬ (∀ model, model ∈ ["filter"; "filterlist"] →
       ∃ f, added_field operations model "send_alert" = Some f
         ∧ field_type f = BooleanField ∧ null f = true).
Proof.
  intros Hall. destruct (Hall "filterlist") as (f & Hf & _ & Hnull).
  - set_solver.
  - vm_compute in Hf. injection Hf as <-. discriminate Hnull.
Qed.

Lemma forward_backfill_mapped_witness :
  ∃ t', migrate_filterlist_checked mapped_table = Return t'
    ∧ t' = forward_data operations mapped_table
    ∧ ∀ pk fl, mapped_table !! pk = Some fl →
        ∃ fl', t' !! pk = Some fl'
          ∧ name fl' = name fl
          ∧ send_alert fl'
            = (if bool_decide (name fl ∈ ["token"; "domain"; "invite"])
               then Some true else Some false)
          ∧ dm_embed fl' = Some "".
Proof.
  apply (forward_backfill_mapped mapped_table).
  intros pk fl. unfold mapped_table.
  rewrite lookup_insert. case_decide.
  - intros [= <-]. simpl. apply list_elem_of_here.
  - rewrite lookup_singleton. case_decide; [|discriminate].
    intros [= <-]. simpl. rewrite !elem_of_cons. tauto.
Defined.

Lemma backward_reset_witness :
  sample_table !! 7%Z = Some custom_filter_list
  ∧ ∃ fl', backward_data operations sample_table !! 7%Z = Some fl'
      ∧ name fl' = "custom"
      ∧ send_alert fl' = Some true
      ∧ server_message_embed fl' = None.
Proof.
  split; [reflexivity|].
  apply (backward_reset sample_table 7 custom_filter_list). reflexivity.
Defined.

End migration_properties.

(* ===================================================================== *)
(** * Properties of the custom validation rules *)
(* ===================================================================== *)

Section validation_rules.
Implicit Types attrs : gmap string pyval.

Lemma in_strs_inv (v : pyval) (t : list string) :
  in_strs v t = true → ∃ s, v = VStr s ∧ s ∈ t.
Proof.
  destruct v; simpl; try discriminate.
  intros Hin%bool_decide_eq_true. eauto.
Qed.

Lemma truthy_datetime_or_none (v : pyval) :
  v = VNone ∨ (∃ ts, v = VDatetime ts) → v ≠ VNone → truthy v = true.
Proof. intros [->|[ts ->]] Hv; [done|reflexivity]. Qed.

(** C2. An Infraction attribute set whose type is kick or warning and whose
    [expires_at] is present and not null is rejected by a [ValidationError]
    keyed on [expires_at]. *)
Theorem infraction_expiry_rejected attrs (t : string) (v : pyval) :
  expires_at_well_typed attrs →
  attrs !! "type" = Some (VStr t) →
  t ∈ ["kick"; "warning"] →
  attrs !! "expires_at" = Some v →
  v ≠ VNone →
  validate InfractionSerializer attrs
  = Raise (ValidationError
             {[ "expires_at" :=
                  ErrorList [(t ++ " infractions cannot expire.")%string] ]}).
Proof.
  intros Htyped Htype Ht Hexp Hv. simpl.
  unfold InfractionSerializer_validate, dict_get. rewrite Htype, Hexp. simpl.
  rewrite (truthy_datetime_or_none v) by auto.
  by rewrite bool_decide_eq_true_2.
Qed.

Lemma nomination_accepts_falsy attrs :
  truthy (dict_get attrs "active") = false
  ∨ truthy (dict_get attrs "unnominate_reason") = false →
  NominationSerializer_validate attrs = Return attrs.
Proof.
  unfold NominationSerializer_validate.
  intros [->| ->]; [done|]. by rewrite andb_false_r.
Qed.

(** C4. A Nomination attribute set that is active and carries a non-empty
    [unnominate_reason] is rejected by a [ValidationError] keyed on
    [unnominate_reason]; one that is not active, or whose reason is empty,
    passes the rule and is returned. *)
Theorem nomination_active_reason_rejected attrs :
  (∀ reason,
     attrs !! "active" = Some (VBool true) →
     attrs !! "unnominate_reason" = Some (VStr reason) →
     reason ≠ "" →
     validate NominationSerializer attrs
     = Raise (ValidationError
                {[ "unnominate_reason" :=
                     ErrorString "An active nomination can't have an unnominate reason" ]}))
  ∧ (attrs !! "active" = Some (VBool false)
     ∨ attrs !! "unnominate_reason" = Some (VStr "") →
     validate NominationSerializer attrs = Return attrs).
Proof.
  split.
  - intros reason Hactive Hreason Hne. simpl.
    unfold NominationSerializer_validate, dict_get. rewrite Hactive, Hreason.
    simpl. destruct (String.eqb_spec reason ""); [done|reflexivity].
  - intros Hfalsy. simpl. apply nomination_accepts_falsy.
    unfold dict_get. destruct Hfalsy as [-> | ->]; auto.
Qed.

(** Every error [InfractionSerializer.validate] raises maps its field to a
    list of messages. *)
Lemma infraction_errors_list_valued attrs (detail : gmap string error_detail) :
  InfractionSerializer_validate attrs = Raise (ValidationError detail) →
  list_valued detail.
Proof.
  unfold InfractionSerializer_validate.
  repeat case_match; intros [= <-]; intros field value;
    rewrite lookup_singleton; case_decide; intros [= <-]; eauto.
Qed.


(** C10. Whenever [validate] returns, it returns the attribute set it was
    given: for [InfractionSerializer], for [NominationSerializer], and for
    the classes that inherit the base method. *)
Theorem validate_returns_attrs (s : serializer) attrs (attrs' : gmap string pyval) :
  validate s attrs = Return attrs' → attrs' = attrs.
Proof.
  destruct s; simpl;
    unfold InfractionSerializer_validate, NominationSerializer_validate;
    repeat case_match; congruence.
Qed.

Lemma infraction_expiry_rejected_witness :
  expires_at_well_typed kick_with_expiry
  ∧ validate InfractionSerializer kick_with_expiry
    = Raise (ValidationError
               {[ "expires_at" := ErrorList ["kick infractions cannot expire."] ]}).
Proof.
  assert (Htyped : expires_at_well_typed kick_with_expiry).
  { intros v [= <-]. right. by exists 1640000000%Z. }
  split; [exact Htyped|].
  apply (infraction_expiry_rejected kick_with_expiry "kick" (VDatetime 1640000000)).
  - exact Htyped.
  - reflexivity.
  - apply list_elem_of_here.
  - reflexivity.
  - discriminate.
Defined.

Lemma nomination_active_reason_rejected_witness :
  validate NominationSerializer active_nomination_with_reason
  = Raise (ValidationError
             {[ "unnominate_reason" :=
                  ErrorString "An active nomination can't have an unnominate reason" ]})
  ∧ validate NominationSerializer ended_nomination = Return ended_nomination.
Proof.
  split.
  - apply (proj1 (nomination_active_reason_rejected active_nomination_with_reason)
             "left"); [reflexivity|reflexivity|discriminate].
  - apply (proj2 (nomination_active_reason_rejected ended_nomination)).
    left. reflexivity.
Defined.

Lemma validate_returns_attrs_witness :
  validate NominationSerializer ended_nomination = Return ended_nomination
  ∧ ended_nomination = ended_nomination.
Proof.
  split; [reflexivity|].
  apply (validate_returns_attrs NominationSerializer ended_nomination ended_nomination).
  reflexivity.
Defined.

End validation_rules.

(* ===================================================================== *)
(** * Properties of nested creation *)
(* ===================================================================== *)

Section nested_creation.

Lemma create_message_fresh (ctx : pyval) (m : gmap string pyval) (db : database) :
  m !! "deletion_context" = None →
  create_message ctx (VDict m) db
  = (Return tt,
     db ++ [{| row_table := "DeletedMessage";
               row_pk := next_pk "DeletedMessage" db;
               row_attrs := <["deletion_context" := ctx]> m |}]).
Proof.
  intros Hfree. unfold create_message, orm_lift, keyword_arguments.
  unfold mbind, orm_mbind, orm_bind. by rewrite Hfree.
Qed.

Lemma create_message_supplied (ctx v : pyval) (m : gmap string pyval) (db : database) :
  m !! "deletion_context" = Some v →
  create_message ctx (VDict m) db
  = (Raise (TypeError "got multiple values for keyword argument 'deletion_context'"),
     db).
Proof.
  intros Hgiven. unfold create_message, orm_lift, keyword_arguments.
  unfold mbind, orm_mbind, orm_bind. by rewrite Hgiven.
Qed.

Lemma for_each_cons {A} (x : A) (l : list A) (body : A → orm unit)
    (db : database) :
  for_each (x :: l) body db
  = match body x db with
    | (Return _, db') => for_each l body db'
    | (Raise e, db') => (Raise e, db')
    end.
Proof. reflexivity. Qed.

(** The scenario of the specification: one context, then one message
    linked to it. *)
Lemma create_scenario :
  MessageDeletionContextSerializer_create scenario_payload []
  = (Return (VRef "MessageDeletionContext" 1),
     [ {| row_table := "MessageDeletionContext"; row_pk := 1;
          row_attrs := {[ "actor" := VRef "User" 1 ]} |};
       {| row_table := "DeletedMessage"; row_pk := 1;
          row_attrs := <["deletion_context" := VRef "MessageDeletionContext" 1]>
                         hi_message |} ]).
Proof. reflexivity. Qed.

(** C6, on the input where the code departs from it.  A message payload
    may name a deletion context of its own; [create] then passes
    [deletion_context] twice, the call raises a [TypeError], and the
    database is left with the new context and no message. *)
Theorem create_naming_context_raises :
  MessageDeletionContextSerializer_create payload_naming_context [earlier_context]
  = (Raise (TypeError "got multiple values for keyword argument 'deletion_context'"),
     [ earlier_context;
       {| row_table := "MessageDeletionContext"; row_pk := 2;
          row_attrs := {[ "actor" := VRef "User" 1 ]} |} ])
  ∧ rows_of "DeletedMessage"
      (MessageDeletionContextSerializer_create payload_naming_context
         [earlier_context]).2
    = [].
Proof. split; reflexivity. Qed.

End nested_creation.

(* ===================================================================== *)
(** * Properties of serializing and validating back *)
(* ===================================================================== *)

Section round_trips.
Context `{!Fields}.
Implicit Types instance ret data : gmap string pyval.

(** The inherited representation of an instance that has every declared
    attribute: each declared field rendered, the keys gathered before
    untouched. *)
Lemma represent_fields_lookup (s : serializer) instance (fields : list string) ret :
  (∀ f, f ∈ fields → is_Some (instance !! f)) →
  ∃ rep, represent_fields s instance fields ret = Return rep
    ∧ ∀ k, rep !! k = if decide (k ∈ fields) then render s k <$> instance !! k
                      else ret !! k.
Proof.
  revert ret. induction fields as [|f fields IH]; intros ret Hhas.
  - exists ret. split; [done|]. intros k. by rewrite decide_False by apply not_elem_of_nil.
  - destruct (Hhas f) as [v Hv]; [apply list_elem_of_here|].
    destruct (IH (<[f := render s f v]> ret)) as (rep & Hrep & Hlookup).
    { intros g Hg. apply Hhas. by apply list_elem_of_further. }
    exists rep. split.
    + simpl. unfold getattr. rewrite Hv. exact Hrep.
    + intros k. rewrite Hlookup.
      destruct (decide (k ∈ fields)) as [Hin|Hout].
      * by rewrite decide_True by (by apply list_elem_of_further).
      * destruct (decide (k = f)) as [->|Hne].
        -- rewrite decide_True by apply list_elem_of_here.
           by rewrite lookup_insert_eq, Hv.
        -- rewrite decide_False by (rewrite elem_of_cons; tauto).
           by rewrite lookup_insert_ne.
Qed.


Lemma writable_attrs_lookup (s : serializer) instance (k : string) :
  writable_attrs s instance !! k
  = if decide (k ∈ Meta_fields s ∧ read_only s k = false)
    then instance !! k else None.
Proof.
  unfold writable_attrs. rewrite map_lookup_filter.
  destruct (instance !! k) as [v|] eqn:Hk; simpl.
  - case_decide; [by rewrite option_guard_True|by rewrite option_guard_False].
  - by case_decide.
Qed.

(** The classes that keep the inherited representation. *)
Lemma to_representation_inherited (db : database) (s : serializer) instance :
  s ≠ OffTopicChannelNameSerializer →
  s ≠ ExpandedInfractionSerializer →
  to_representation db s instance
  = (ret ← ModelSerializer_to_representation s instance; mret (VDict ret)).
Proof. by destruct s. Qed.


End round_trips.

(** The expanded representation of an infraction holds the representation
    of the two users under [user] and [actor], the other keys unchanged. *)
Lemma expanded_infraction_scenario :
  @to_representation plain_fields two_users ExpandedInfractionSerializer
    superstar_infraction
  = Return (VDict (<["user" := VDict (instance_of (user_row 5 "lemon"))]>
                     (<["actor" := VDict (instance_of (user_row 9 "joe"))]>
                        superstar_infraction))).
Proof. reflexivity. Qed.



(* ===================================================================== *)
(** * Further properties of migration 0079 *)
(* ===================================================================== *)

Section migration_frame.
Import Migration.

(** Neither data step adds or removes a row: the primary keys of the table
    are the same before and after, in both directions. *)
Theorem migration_keeps_keys (t : table) :
  dom (migrate_filterlist t) = dom t
  ∧ dom (unmigrate_filterlist t) = dom t.
Proof.
  rewrite migrate_filterlist_fmap, unmigrate_filterlist_fmap.
  by rewrite !dom_fmap_L.
Qed.

(** The forward step touches only [send_alert] and [dm_embed]: the legacy
    embed and every other column of a row keep their values. *)
Theorem migrate_leaves_other_columns (t : table) (pk : Z) (fl : FilterList) :
  t !! pk = Some fl →
  ∃ fl', migrate_filterlist t !! pk = Some fl'
    ∧ server_message_embed fl' = server_message_embed fl
    ∧ other_columns fl' = other_columns fl.
Proof.
  intros Hrow. exists (migrate_instance fl).
  by rewrite migrate_filterlist_fmap, lookup_fmap, Hrow.
Qed.

Lemma migrate_leaves_other_columns_witness :
  sample_table !! 7%Z = Some custom_filter_list
  ∧ ∃ fl', migrate_filterlist sample_table !! 7%Z = Some fl'
      ∧ server_message_embed fl' = Some "{}"
      ∧ other_columns fl' = ∅.
Proof.
  split; [reflexivity|].
  apply (migrate_leaves_other_columns sample_table 7 custom_filter_list).
  reflexivity.
Defined.

(** Against the store the forward step has two outcomes.  When every name
    is one of the five of [change_map] it completes, with the table the
    loop of writes gives; as soon as one row has another name it ends with
    an [IntegrityError] on [send_alert], the column that is NOT NULL. *)
Theorem migrate_checked_outcome (t : table) :
  ((∀ pk fl, t !! pk = Some fl →
      name fl ∈ ["token"; "domain"; "invite"; "extension"; "redirect"]) →
   migrate_filterlist_checked t = Return (migrate_filterlist t))
  ∧ (∀ pk fl, t !! pk = Some fl →
       name fl ∉ ["token"; "domain"; "invite"; "extension"; "redirect"] →
       migrate_filterlist_checked t = Raise (IntegrityError "send_alert")).
Proof.
  split; [apply migrate_checked_mapped|apply migrate_checked_unmapped].
Qed.

Lemma migrate_checked_outcome_witness :
  migrate_filterlist_checked sample_table = Raise (IntegrityError "send_alert").
Proof.
  apply (proj2 (migrate_checked_outcome sample_table) 7%Z custom_filter_list).
  - reflexivity.
  - simpl. rewrite !elem_of_cons, elem_of_nil.
    intros [?|[?|[?|[?|[?|[]]]]]]; discriminate.
Defined.

(** Against the store the reverse step always completes: it writes no
    null into a column that is NOT NULL, and gives the table the loop of
    writes gives. *)
Theorem unmigrate_checked_returns (t : table) :
  unmigrate_filterlist_checked t = Return (unmigrate_filterlist t).
Proof. apply unmigrate_checked_accepted. Qed.

(** The reverse step touches only [send_alert] and the legacy embed: in
    particular it keeps whatever [dm_embed] holds, and every other column. *)
Theorem unmigrate_leaves_dm_embed (t : table) (pk : Z) (fl : FilterList) :
  t !! pk = Some fl →
  ∃ fl', unmigrate_filterlist t !! pk = Some fl'
    ∧ dm_embed fl' = dm_embed fl
    ∧ other_columns fl' = other_columns fl.
Proof.
  intros Hrow. exists (unmigrate_instance fl).
  by rewrite unmigrate_filterlist_fmap, lookup_fmap, Hrow.
Qed.

Lemma unmigrate_leaves_dm_embed_witness :
  sample_table !! 7%Z = Some custom_filter_list
  ∧ ∃ fl', unmigrate_filterlist sample_table !! 7%Z = Some fl'
      ∧ dm_embed fl' = None
      ∧ other_columns fl' = ∅.
Proof.
  split; [reflexivity|].
  apply (unmigrate_leaves_dm_embed sample_table 7 custom_filter_list).
  reflexivity.
Defined.

(** The reverse step is idempotent. *)
Theorem unmigrate_idempotent (t : table) :
  unmigrate_filterlist (unmigrate_filterlist t) = unmigrate_filterlist t.
Proof.
  rewrite !unmigrate_filterlist_fmap, <- map_fmap_compose.
  by apply map_fmap_ext.
Qed.

(** The reverse step does not undo the forward step: running forward and
    then backward gives the table back exactly when every row already had
    [send_alert] true, an empty [dm_embed] and a null legacy embed. *)
Theorem unmigrate_after_migrate (t : table) :
  unmigrate_filterlist (migrate_filterlist t) = t
  ↔ ∀ pk fl, t !! pk = Some fl →
      send_alert fl = Some true ∧ dm_embed fl = Some ""
      ∧ server_message_embed fl = None.
Proof.
  rewrite unmigrate_filterlist_fmap, migrate_filterlist_fmap, <- map_fmap_compose.
  split.
  - intros Heq pk fl Hrow.
    assert (Hpk : (unmigrate_instance ∘ migrate_instance <$> t) !! pk = Some fl)
      by (by rewrite Heq).
    rewrite lookup_fmap, Hrow in Hpk. injection Hpk as <-. done.
  - intros Hall. apply map_eq. intros pk. rewrite lookup_fmap.
    destruct (t !! pk) as [fl|] eqn:Hrow; [|done].
    destruct (Hall pk fl Hrow) as (Ha & Hd & Hs). simpl. f_equal.
    destruct fl; simpl in *. by subst.
Qed.

End migration_frame.

(* ===================================================================== *)
(** * Further properties of the custom validation rules *)
(* ===================================================================== *)

Section validation_cases.
Implicit Types attrs : gmap string pyval.

Lemma in_kick_warning_not_superstar (t : string) :
  t ∈ ["kick"; "warning"] → bool_decide (t ∈ ["superstar"]) = false.
Proof.
  rewrite !elem_of_cons, elem_of_nil. intros [->|[->|[]]]; reflexivity.
Qed.

(** A superstar infraction that is hidden is rejected by a
    [ValidationError] keyed on [hidden], whatever its [expires_at]. *)
Theorem infraction_hidden_superstar_rejected attrs :
  attrs !! "type" = Some (VStr "superstar") →
  attrs !! "hidden" = Some (VBool true) →
  validate InfractionSerializer attrs
  = Raise (ValidationError
             {[ "hidden" := ErrorList ["superstar infractions cannot be hidden."] ]}).
Proof.
  intros Htype Hhidden. simpl.
  unfold InfractionSerializer_validate, dict_get. rewrite Htype, Hhidden. simpl.
  by rewrite andb_false_r.
Qed.

Lemma infraction_hidden_superstar_rejected_witness :
  validate InfractionSerializer
    {[ "type" := VStr "superstar"; "hidden" := VBool true;
       "expires_at" := VDatetime 1640000000 ]}
  = Raise (ValidationError
             {[ "hidden" := ErrorList ["superstar infractions cannot be hidden."] ]}).
Proof.
  apply (infraction_hidden_superstar_rejected
           {[ "type" := VStr "superstar"; "hidden" := VBool true;
              "expires_at" := VDatetime 1640000000 ]}); reflexivity.
Defined.

(** An attribute set without a [type], or whose type is none of kick,
    warning and superstar, is accepted whatever [expires_at] and [hidden]
    hold. *)
Theorem infraction_other_types_accepted attrs :
  (attrs !! "type" = None
   ∨ ∃ t, attrs !! "type" = Some (VStr t)
        ∧ t ∉ ["kick"; "warning"; "superstar"]) →
  validate InfractionSerializer attrs = Return attrs.
Proof.
  intros Htype. simpl. unfold InfractionSerializer_validate, dict_get.
  destruct Htype as [->|(t & -> & Hother)]; simpl.
  - by rewrite !andb_false_r.
  - rewrite !bool_decide_eq_false_2, !andb_false_r; [done|..];
      revert Hother; rewrite !elem_of_cons, !elem_of_nil; tauto.
Qed.

Lemma infraction_other_types_accepted_witness :
  validate InfractionSerializer
    {[ "type" := VStr "ban"; "hidden" := VBool true;
       "expires_at" := VDatetime 1640000000 ]}
  = Return {[ "type" := VStr "ban"; "hidden" := VBool true;
              "expires_at" := VDatetime 1640000000 ]}.
Proof.
  apply (infraction_other_types_accepted
           {[ "type" := VStr "ban"; "hidden" := VBool true;
              "expires_at" := VDatetime 1640000000 ]}).
  right. exists "ban". split; [reflexivity|].
  rewrite !elem_of_cons, elem_of_nil. intros [?|[?|[?|[]]]]; discriminate.
Defined.

(** A kick or a warning is accepted exactly when its [expires_at] is
    absent, null or otherwise false; [hidden] plays no part. *)
Theorem infraction_kick_warning_accepted_iff attrs (t : string) :
  attrs !! "type" = Some (VStr t) →
  t ∈ ["kick"; "warning"] →
  validate InfractionSerializer attrs = Return attrs
  ↔ truthy (dict_get attrs "expires_at") = false.
Proof.
  intros Htype Ht. simpl. unfold InfractionSerializer_validate.
  assert (dict_get attrs "type" = VStr t) as ->
    by (unfold dict_get; by rewrite Htype).
  simpl.
  rewrite (bool_decide_eq_true_2 _ Ht), (in_kick_warning_not_superstar t Ht).
  rewrite andb_true_r, andb_false_r.
  destruct (truthy (dict_get attrs "expires_at")); split; congruence.
Qed.

Lemma infraction_kick_warning_accepted_iff_witness :
  validate InfractionSerializer {[ "type" := VStr "warning"; "hidden" := VBool true ]}
  = Return {[ "type" := VStr "warning"; "hidden" := VBool true ]}
  ↔ truthy (dict_get {[ "type" := VStr "warning"; "hidden" := VBool true ]}
              "expires_at") = false.
Proof.
  apply (infraction_kick_warning_accepted_iff
           {[ "type" := VStr "warning"; "hidden" := VBool true ]} "warning").
  - reflexivity.
  - apply list_elem_of_further, list_elem_of_here.
Defined.

(** [InfractionSerializer.validate] raises nothing but its two errors, one
    field at a time: [expires_at] for a kick or a warning, [hidden] for a
    superstar, each with one message that names the type. *)
Theorem infraction_raises_only attrs (e : exception) :
  validate InfractionSerializer attrs = Raise e →
  ∃ t, attrs !! "type" = Some (VStr t)
    ∧ ((t ∈ ["kick"; "warning"]
        ∧ e = ValidationError
                {[ "expires_at" :=
                     ErrorList [(t ++ " infractions cannot expire.")%string] ]})
       ∨ (t = "superstar"
          ∧ e = ValidationError
                  {[ "hidden" :=
                       ErrorList [(t ++ " infractions cannot be hidden.")%string] ]})).
Proof.
  simpl. unfold InfractionSerializer_validate.
  destruct (truthy (dict_get attrs "expires_at")
            && in_strs (dict_get attrs "type") ["kick"; "warning"]) eqn:Hfirst.
  - apply andb_true_iff in Hfirst as [_ Hin].
    destruct (in_strs_inv _ _ Hin) as (t & Ht & Hmem).
    intros [= <-]. exists t. rewrite Ht. split; [|by left].
    unfold dict_get in Ht. destruct (attrs !! "type"); simpl in Ht; congruence.
  - destruct (truthy (dict_get attrs "hidden")
              && in_strs (dict_get attrs "type") ["superstar"]) eqn:Hsecond;
      [|discriminate].
    apply andb_true_iff in Hsecond as [_ Hin].
    destruct (in_strs_inv _ _ Hin) as (t & Ht & Hmem).
    apply list_elem_of_singleton in Hmem as ->.
    intros [= <-]. exists "superstar". rewrite Ht. split; [|by right].
    unfold dict_get in Ht. destruct (attrs !! "type"); simpl in Ht; congruence.
Qed.

Lemma infraction_raises_only_witness :
  ∃ t, kick_with_expiry !! "type" = Some (VStr t)
    ∧ ((t ∈ ["kick"; "warning"]
        ∧ ValidationError
            {[ "expires_at" := ErrorList ["kick infractions cannot expire."] ]}
          = ValidationError
              {[ "expires_at" :=
                   ErrorList [(t ++ " infractions cannot expire.")%string] ]})
       ∨ (t = "superstar"
          ∧ ValidationError
              {[ "expires_at" := ErrorList ["kick infractions cannot expire."] ]}
            = ValidationError
                {[ "hidden" :=
                     ErrorList [(t ++ " infractions cannot be hidden.")%string] ]})).
Proof.
  apply (infraction_raises_only kick_with_expiry). reflexivity.
Defined.

(** A Nomination attribute set that leaves out [active] or
    [unnominate_reason], as a partial update does, passes the rule. *)
Theorem nomination_partial_accepted attrs :
  attrs !! "active" = None ∨ attrs !! "unnominate_reason" = None →
  validate NominationSerializer attrs = Return attrs.
Proof.
  intros Hmissing. simpl. apply nomination_accepts_falsy.
  unfold dict_get. destruct Hmissing as [-> | ->]; auto.
Qed.

Lemma nomination_partial_accepted_witness :
  validate NominationSerializer {[ "unnominate_reason" := VStr "left" ]}
  = Return {[ "unnominate_reason" := VStr "left" ]}.
Proof.
  apply (nomination_partial_accepted {[ "unnominate_reason" := VStr "left" ]}).
  left. reflexivity.
Defined.

(** [NominationSerializer.validate] raises nothing but the one error on
    [unnominate_reason], and only when both [active] and
    [unnominate_reason] are present and true. *)
Theorem nomination_raises_only attrs (e : exception) :
  validate NominationSerializer attrs = Raise e →
  e = ValidationError
        {[ "unnominate_reason" :=
             ErrorString "An active nomination can't have an unnominate reason" ]}
  ∧ ∃ active reason,
      attrs !! "active" = Some active
      ∧ attrs !! "unnominate_reason" = Some reason
      ∧ truthy active = true ∧ truthy reason = true.
Proof.
  simpl. unfold NominationSerializer_validate, dict_get.
  destruct (attrs !! "active") as [active|]; simpl; [|discriminate].
  destruct (attrs !! "unnominate_reason") as [reason|]; simpl;
    [|by rewrite andb_false_r].
  destruct (truthy active) eqn:Ha, (truthy reason) eqn:Hr; simpl; try discriminate.
  intros [= <-]. split; [done|]. by exists active, reason.
Qed.

Lemma nomination_raises_only_witness :
  ValidationError
    {[ "unnominate_reason" :=
         ErrorString "An active nomination can't have an unnominate reason" ]}
  = ValidationError
      {[ "unnominate_reason" :=
           ErrorString "An active nomination can't have an unnominate reason" ]}
  ∧ ∃ active reason,
      active_nomination_with_reason !! "active" = Some active
      ∧ active_nomination_with_reason !! "unnominate_reason" = Some reason
      ∧ truthy active = true ∧ truthy reason = true.
Proof.
  apply (nomination_raises_only active_nomination_with_reason). reflexivity.
Defined.

End validation_cases.

(* ===================================================================== *)
(** * Further properties of nested creation *)
(* ===================================================================== *)

Section creation_cases.

(** A message the loop body stores is a mapping that leaves
    [deletion_context] out, and what is stored is that message linked to
    the context. *)
Lemma create_message_returns (ctx message : pyval) (db db' : database) :
  create_message ctx message db = (Return tt, db') →
  ∃ m r, message = VDict m ∧ m !! "deletion_context" = None
    ∧ db' = db ++ [r] ∧ linked_to ctx m r.
Proof.
  unfold create_message, orm_lift, keyword_arguments.
  unfold mbind, orm_mbind, orm_bind.
  destruct message as [| | | | | | |m]; try discriminate.
  destruct (m !! "deletion_context") eqn:Hkey; [discriminate|].
  intros [= <-]. eexists m, _. by repeat split.
Qed.

Lemma for_each_returns (ctx : pyval) (items : list pyval) (db db' : database) :
  for_each items (create_message ctx) db = (Return tt, db') →
  ∃ ms rows, items = VDict <$> ms
    ∧ Forall (λ m, m !! "deletion_context" = None) ms
    ∧ db' = db ++ rows
    ∧ Forall2 (linked_to ctx) ms rows.
Proof.
  revert db. induction items as [|message items IH]; intros db.
  - intros [= <-]. exists [], []. by rewrite app_nil_r.
  - rewrite for_each_cons.
    destruct (create_message ctx message db) as [[[]|e] db1] eqn:Hstep;
      [|discriminate].
    destruct (create_message_returns _ _ _ _ Hstep) as (m & r & -> & Hm & -> & Hr).
    intros (ms & rows & -> & Hms & -> & Hrows)%IH.
    exists (m :: ms), (r :: rows). rewrite <- app_assoc.
    split; [done|]. split; [by constructor|]. split; [done|]. by constructor.
Qed.

(** Whenever [create] returns, the validated data held
    [deletedmessage_set], every message in it was a mapping that left
    [deletion_context] out, what is returned is the new context, and the
    database is the one before followed by the context row (the validated
    data without [deletedmessage_set]) and then one row per message, in
    order, each the message with [deletion_context] set to the new
    context. *)
Theorem create_returns_linked_rows (validated_data : gmap string pyval)
    (db db' : database) (v : pyval) :
  MessageDeletionContextSerializer_create validated_data db = (Return v, db') →
  ∃ messages ms pk rows,
    validated_data !! "deletedmessage_set" = Some messages
    ∧ iterate messages = Return (VDict <$> ms)
    ∧ Forall (λ m, m !! "deletion_context" = None) ms
    ∧ v = VRef "MessageDeletionContext" pk
    ∧ db' = db ++ {| row_table := "MessageDeletionContext"; row_pk := pk;
                     row_attrs := delete "deletedmessage_set" validated_data |}
               :: rows
    ∧ Forall2 (linked_to v) ms rows.
Proof.
  unfold MessageDeletionContextSerializer_create, orm_lift, dict_pop.
  unfold mbind, orm_mbind, orm_bind.
  destruct (validated_data !! "deletedmessage_set") as [messages|];
    [|discriminate]. simpl.
  destruct (iterate messages) as [items|e] eqn:Hiter; [|discriminate]. simpl.
  destruct (for_each items _ _) as [[[]|e] db2] eqn:Hloop; [|discriminate].
  intros [= <- <-].
  destruct (for_each_returns _ _ _ _ Hloop) as (ms & rows & -> & Hms & -> & Hrows).
  exists messages, ms, (next_pk "MessageDeletionContext" db), rows.
  rewrite <- app_assoc. by repeat split.
Qed.

Lemma create_returns_linked_rows_witness :
  ∃ messages ms pk rows,
    scenario_payload !! "deletedmessage_set" = Some messages
    ∧ iterate messages = Return (VDict <$> ms)
    ∧ Forall (λ m, m !! "deletion_context" = None) ms
    ∧ VRef "MessageDeletionContext" 1 = VRef "MessageDeletionContext" pk
    ∧ [ {| row_table := "MessageDeletionContext"; row_pk := 1;
           row_attrs := {[ "actor" := VRef "User" 1 ]} |};
        {| row_table := "DeletedMessage"; row_pk := 1;
           row_attrs := <["deletion_context" := VRef "MessageDeletionContext" 1]>
                          hi_message |} ]
      = [] ++ {| row_table := "MessageDeletionContext"; row_pk := pk;
                 row_attrs := delete "deletedmessage_set" scenario_payload |}
              :: rows
    ∧ Forall2 (linked_to (VRef "MessageDeletionContext" 1)) ms rows.
Proof.
  apply (create_returns_linked_rows scenario_payload []).
  reflexivity.
Defined.

(** Validated data without the key [deletedmessage_set] makes [create] raise
    a [KeyError] before anything is written. *)
Theorem create_without_messages_key (validated_data : gmap string pyval)
    (db : database) :
  validated_data !! "deletedmessage_set" = None →
  MessageDeletionContextSerializer_create validated_data db
  = (Raise (KeyError "deletedmessage_set"), db).
Proof.
  intros Hmissing.
  unfold MessageDeletionContextSerializer_create, orm_lift, dict_pop.
  unfold mbind, orm_mbind, orm_bind. by rewrite Hmissing.
Qed.

Lemma create_without_messages_key_witness :
  MessageDeletionContextSerializer_create {[ "actor" := VRef "User" 1 ]}
    [earlier_context]
  = (Raise (KeyError "deletedmessage_set"), [earlier_context]).
Proof.
  apply (create_without_messages_key {[ "actor" := VRef "User" 1 ]}
           [earlier_context]).
  reflexivity.
Defined.

(** The loop stops at the first message that names a deletion context of
    its own: the messages before it have been stored, no later one is. *)
Lemma for_each_stops (ctx v : pyval) (good : list (gmap string pyval))
    (bad : gmap string pyval) (rest : list pyval) (db : database) :
  Forall (λ m, m !! "deletion_context" = None) good →
  bad !! "deletion_context" = Some v →
  ∃ rows,
    for_each ((VDict <$> good) ++ VDict bad :: rest) (create_message ctx) db
    = (Raise (TypeError "got multiple values for keyword argument 'deletion_context'"),
       db ++ rows)
    ∧ Forall2 (linked_to ctx) good rows.
Proof.
  intros Hfree Hbad. revert db.
  induction Hfree as [|m good Hm _ IH]; intros db.
  - exists []. rewrite app_nil_r. split; [|constructor].
    rewrite fmap_nil, app_nil_l, for_each_cons.
    by rewrite (create_message_supplied ctx v bad db Hbad).
  - rewrite fmap_cons, <- app_comm_cons, for_each_cons, create_message_fresh
      by done.
    destruct (IH (db ++ [{| row_table := "DeletedMessage";
                            row_pk := next_pk "DeletedMessage" db;
                            row_attrs := <["deletion_context" := ctx]> m |}]))
      as (rows & -> & Hrows).
    eexists (_ :: rows). rewrite <- app_assoc. split; [done|].
    by constructor.
Qed.

(** When a message names a deletion context of its own, [create] raises a
    [TypeError] and leaves behind the new context and the messages that
    came before that one, each linked to the new context; that message and
    the ones after it are not stored. *)
Theorem create_stops_at_named_context (validated_data : gmap string pyval)
    (good : list (gmap string pyval)) (bad : gmap string pyval)
    (rest : list pyval) (v : pyval) (db : database) :
  validated_data !! "deletedmessage_set"
  = Some (VList ((VDict <$> good) ++ VDict bad :: rest)) →
  Forall (λ m, m !! "deletion_context" = None) good →
  bad !! "deletion_context" = Some v →
  ∃ pk rows,
    MessageDeletionContextSerializer_create validated_data db
    = (Raise (TypeError "got multiple values for keyword argument 'deletion_context'"),
       db ++ {| row_table := "MessageDeletionContext"; row_pk := pk;
                row_attrs := delete "deletedmessage_set" validated_data |}
          :: rows)
    ∧ Forall2 (linked_to (VRef "MessageDeletionContext" pk)) good rows.
Proof.
  intros Hset Hfree Hbad.
  exists (next_pk "MessageDeletionContext" db).
  destruct (for_each_stops
              (VRef "MessageDeletionContext" (next_pk "MessageDeletionContext" db))
              v good bad rest
              (db ++ [{| row_table := "MessageDeletionContext";
                         row_pk := next_pk "MessageDeletionContext" db;
                         row_attrs := delete "deletedmessage_set" validated_data |}])
              Hfree Hbad) as (rows & Hloop & Hrows).
  exists rows. split; [|done].
  unfold MessageDeletionContextSerializer_create, orm_lift, dict_pop.
  unfold mbind, orm_mbind, orm_bind. rewrite Hset. simpl.
  rewrite Hloop. by rewrite <- app_assoc.
Qed.

Lemma create_stops_at_named_context_witness :
  ∃ pk rows,
    MessageDeletionContextSerializer_create
      {[ "actor" := VRef "User" 1;
         "deletedmessage_set" :=
           VList [VDict hi_message;
                  VDict (<["deletion_context" := VRef "MessageDeletionContext" 1]>
                           hi_message);
                  VDict hi_message] ]}
      [earlier_context]
    = (Raise (TypeError "got multiple values for keyword argument 'deletion_context'"),
       [earlier_context]
       ++ {| row_table := "MessageDeletionContext"; row_pk := pk;
             row_attrs :=
               delete "deletedmessage_set"
                 {[ "actor" := VRef "User" 1;
                    "deletedmessage_set" :=
                      VList [VDict hi_message;
                             VDict (<["deletion_context" :=
                                        VRef "MessageDeletionContext" 1]>
                                      hi_message);
                             VDict hi_message] ]} |}
          :: rows)
    ∧ Forall2 (linked_to (VRef "MessageDeletionContext" pk)) [hi_message] rows.
Proof.
  apply (create_stops_at_named_context _ [hi_message]
           (<["deletion_context" := VRef "MessageDeletionContext" 1]> hi_message)
           [VDict hi_message] (VRef "MessageDeletionContext" 1) [earlier_context]).
  - reflexivity.
  - constructor; [reflexivity|constructor].
  - reflexivity.
Defined.

Lemma create_message_appends (ctx message : pyval) (db : database) :
  ∃ rows, (create_message ctx message db).2 = db ++ rows
    ∧ Forall (λ r, row_table r = "DeletedMessage") rows.
Proof.
  unfold create_message, orm_lift, keyword_arguments.
  unfold mbind, orm_mbind, orm_bind.
  destruct message as [| | | | | | |m];
    try (exists []; by rewrite app_nil_r).
  destruct (m !! "deletion_context").
  - exists []. by rewrite app_nil_r.
  - eexists [_]. split; [done|]. by repeat constructor.
Qed.

Lemma for_each_appends (ctx : pyval) (items : list pyval) (db : database) :
  ∃ rows, (for_each items (create_message ctx) db).2 = db ++ rows
    ∧ Forall (λ r, row_table r = "DeletedMessage") rows.
Proof.
  revert db. induction items as [|message items IH]; intros db.
  - exists []. by rewrite app_nil_r.
  - rewrite for_each_cons.
    destruct (create_message_appends ctx message db) as (rows1 & Hdb1 & Hrows1).
    destruct (create_message ctx message db) as [[[]|e] db1] eqn:Hstep;
      simpl in Hdb1; subst db1.
    + destruct (IH (db ++ rows1)) as (rows2 & -> & Hrows2).
      exists (rows1 ++ rows2). rewrite app_assoc. split; [done|].
      by apply Forall_app.
    + by exists rows1.
Qed.

(** Whatever it is given, and whether it returns or raises, [create] only
    appends to the database: the rows that were there stay, unchanged and
    in place, followed by nothing, or by one new context row and then
    message rows only. *)
Theorem create_only_appends (validated_data : gmap string pyval) (db : database) :
  ∃ rows,
    (MessageDeletionContextSerializer_create validated_data db).2 = db ++ rows
    ∧ (rows = []
       ∨ ∃ context messages,
           rows = context :: messages
           ∧ row_table context = "MessageDeletionContext"
           ∧ Forall (λ r, row_table r = "DeletedMessage") messages).
Proof.
  unfold MessageDeletionContextSerializer_create, orm_lift, dict_pop.
  unfold mbind, orm_mbind, orm_bind.
  destruct (validated_data !! "deletedmessage_set") as [messages|]; simpl.
  - destruct (iterate messages) as [items|e]; simpl.
    + destruct (for_each_appends
                  (VRef "MessageDeletionContext"
                     (next_pk "MessageDeletionContext" db))
                  items
                  (db ++ [{| row_table := "MessageDeletionContext";
                             row_pk := next_pk "MessageDeletionContext" db;
                             row_attrs := delete "deletedmessage_set" validated_data |}]))
        as (rows & Hdb & Hrows).
      destruct (for_each items _ _) as [[[]|e] db'];
        simpl in *; subst db'; rewrite <- app_assoc;
        eexists; (split; [done|]); right; by eexists _, rows.
    + eexists [_]. split; [done|]. right. by eexists _, [].
  - exists []. rewrite app_nil_r. auto.
Qed.

End creation_cases.

(* ===================================================================== *)
(** * Further properties of representation and validation *)
(* ===================================================================== *)

Section representation_cases.
Context `{!Fields}.
Implicit Types instance ret data rep : gmap string pyval.

Lemma result_bind_Return {A B} (a : A) (k : A → result B) :
  Return a ≫= k = k a.
Proof. reflexivity. Qed.

(** An off-topic channel name is represented by its bare name, whatever
    else the record holds, and that representation never validates back:
    it is refused as not being a mapping. *)
Theorem off_topic_round_trip_fails (db : database) instance (n : string) :
  instance !! "name" = Some (VStr n) →
  to_representation db OffTopicChannelNameSerializer instance = Return (VStr n)
  ∧ round_trip db OffTopicChannelNameSerializer instance
    = Raise (ValidationError
               {[ "non_field_errors" :=
                    ErrorList ["Invalid data. Expected a dictionary, but got str."] ]}).
Proof.
  intros Hname. unfold round_trip. simpl.
  unfold OffTopicChannelNameSerializer_to_representation, getattr.
  by rewrite Hname.
Qed.

(** The keyed representation exposes the declared fields and nothing else:
    for every class that keeps the inherited representation and every
    instance that has the declared attributes, the keys of the result are
    exactly [Meta.fields]. *)
Theorem representation_keys (db : database) (s : serializer) instance :
  s ≠ OffTopicChannelNameSerializer →
  s ≠ ExpandedInfractionSerializer →
  (∀ f, f ∈ Meta_fields s → is_Some (instance !! f)) →
  ∃ rep, to_representation db s instance = Return (VDict rep)
    ∧ dom rep = list_to_set (Meta_fields s).
Proof.
  intros Hoff Hexp Hhas. rewrite to_representation_inherited by done.
  unfold ModelSerializer_to_representation.
  destruct (represent_fields_lookup s instance (Meta_fields s) ∅ Hhas)
    as (rep & -> & Hrep).
  exists rep. split; [done|]. apply set_eq. intros k.
  rewrite elem_of_dom, elem_of_list_to_set, Hrep.
  destruct (decide (k ∈ Meta_fields s)) as [Hin|Hout].
  - destruct (Hhas k Hin) as [v ->]. split; [done|]. by eexists.
  - rewrite lookup_empty. split; [by intros [? [=]]|done].
Qed.

(** The expanded representation of an infraction has the keys of the plain
    one; [user] and [actor] hold the representations of the two users, and
    every other key holds what the plain representation holds. *)
Theorem expanded_representation (db : database) instance rep
    (u a : Z) (user actor : row) (user_data actor_data : gmap string pyval) :
  ModelSerializer_to_representation ExpandedInfractionSerializer instance
  = Return rep →
  rep !! "user" = Some (VInt u) →
  rep !! "actor" = Some (VInt a) →
  objects_get "User" (VInt u) db = Return user →
  objects_get "User" (VInt a) db = Return actor →
  ModelSerializer_to_representation UserSerializer (instance_of user)
  = Return user_data →
  ModelSerializer_to_representation UserSerializer (instance_of actor)
  = Return actor_data →
  ∃ rep', to_representation db ExpandedInfractionSerializer instance
          = Return (VDict rep')
    ∧ rep' !! "user" = Some (VDict user_data)
    ∧ rep' !! "actor" = Some (VDict actor_data)
    ∧ (∀ k, k ≠ "user" → k ≠ "actor" → rep' !! k = rep !! k)
    ∧ dom rep' = dom rep.
Proof.
  intros Hrep Hu Ha Huser Hactor Hud Had.
  exists (<["actor" := VDict actor_data]> (<["user" := VDict user_data]> rep)).
  split; [|split; [|split; [|split]]].
  - simpl. unfold ExpandedInfractionSerializer_to_representation.
    rewrite Hrep, result_bind_Return. unfold dict_getitem.
    rewrite Hu, result_bind_Return, Huser, result_bind_Return.
    rewrite Hud, result_bind_Return.
    rewrite lookup_insert_ne, Ha, result_bind_Return by done.
    by rewrite Hactor, result_bind_Return, Had.
  - by rewrite lookup_insert_ne, lookup_insert_eq.
  - by rewrite lookup_insert_eq.
  - intros k Hku Hka. by rewrite !lookup_insert_ne.
  - rewrite !dom_insert_L.
    assert (Huser_in : "user" ∈ dom rep) by (apply elem_of_dom; by eexists).
    assert (Hactor_in : "actor" ∈ dom rep) by (apply elem_of_dom; by eexists).
    rewrite (subseteq_union_1_L {["user"]} (dom rep))
      by (by apply singleton_subseteq_l).
    by rewrite subseteq_union_1_L by (by apply singleton_subseteq_l).
Qed.

(** An infraction whose user is not in the database has no expanded
    representation: serializing it raises [DoesNotExist]. *)
Theorem expanded_missing_user (db : database) instance rep (u : Z) :
  ModelSerializer_to_representation ExpandedInfractionSerializer instance
  = Return rep →
  rep !! "user" = Some (VInt u) →
  (∀ r, r ∈ db → row_table r = "User" → row_pk r ≠ u) →
  to_representation db ExpandedInfractionSerializer instance
  = Raise (DoesNotExist "User").
Proof.
  intros Hrep Hu Hmissing. simpl.
  unfold ExpandedInfractionSerializer_to_representation.
  rewrite Hrep, result_bind_Return. unfold dict_getitem.
  rewrite Hu, result_bind_Return. unfold objects_get.
  destruct (list_find _ db) as [[i r]|] eqn:Hfind; [|done].
  apply list_find_Some in Hfind as (Hr & [Htable Hpk] & _).
  destruct (Hmissing r); [by eapply list_elem_of_lookup_2|done..].
Qed.

Lemma internalise_fields_keys (s : serializer) data (fields : list string) ret
    (errors : gmap string error_detail) (k : string) :
  is_Some ((internalise_fields s data fields ret errors).1 !! k) →
  is_Some (ret !! k) ∨ (k ∈ fields ∧ read_only s k = false).
Proof.
  revert ret errors. induction fields as [|f fields IH]; intros ret errors; [by left|].
  simpl. destruct (read_only s f) eqn:Hro.
  - intros [?|[? ?]]%IH; [by left|right]. split; [by apply list_elem_of_further|done].
  - destruct (field_run_validation s f (data !! f)).
    + intros [Hk|[? ?]]%IH.
      * destruct (decide (k = f)) as [->|Hne].
        -- right. split; [apply list_elem_of_here|done].
        -- left. by rewrite lookup_insert_ne in Hk.
      * right. split; [by apply list_elem_of_further|done].
    + intros [?|[? ?]]%IH; [by left|right].
      split; [by apply list_elem_of_further|done].
    + intros [?|[? ?]]%IH; [by left|right].
      split; [by apply list_elem_of_further|done].
Qed.

Lemma validate_cases (s : serializer) (attrs : gmap string pyval) :
  validate s attrs = Return attrs ∨ ∃ e, validate s attrs = Raise e.
Proof.
  destruct s; simpl; try (by left);
    unfold InfractionSerializer_validate, NominationSerializer_validate;
    repeat case_match; eauto.
Qed.

(** Validation hands on only declared, writable fields: whatever payload a
    class receives, every key of the attribute set it accepts is one of its
    [Meta.fields] and is not read-only. *)
Theorem validated_attrs_within_fields (s : serializer) (payload : pyval)
    (attrs : gmap string pyval) (k : string) :
  run_validation s payload = Return attrs →
  is_Some (attrs !! k) →
  k ∈ Meta_fields s ∧ read_only s k = false.
Proof.
  unfold run_validation, to_internal_value.
  destruct payload as [| | | | | | |m]; try discriminate.
  destruct (internalise_fields s m (Meta_fields s) ∅ ∅) as [ret errors] eqn:Hint.
  case_bool_decide; [|discriminate]. simpl.
  destruct (validate_cases s ret) as [->|[e ->]]; [|discriminate].
  intros [= <-] Hk.
  destruct (internalise_fields_keys s m (Meta_fields s) ∅ ∅ k) as [Hempty|Hin].
  - by rewrite Hint.
  - rewrite lookup_empty in Hempty. by destruct Hempty.
  - done.
Qed.

End representation_cases.

Lemma off_topic_round_trip_fails_witness :
  @to_representation plain_fields two_users OffTopicChannelNameSerializer
    general_chat
  = Return (VStr "general-chat")
  ∧ @round_trip plain_fields two_users OffTopicChannelNameSerializer general_chat
    = Raise (ValidationError
               {[ "non_field_errors" :=
                    ErrorList ["Invalid data. Expected a dictionary, but got str."] ]}).
Proof.
  apply (@off_topic_round_trip_fails plain_fields two_users general_chat
           "general-chat").
  reflexivity.
Defined.

Lemma representation_keys_witness :
  ∃ rep, @to_representation plain_fields [] BotSettingSerializer bot_setting
         = Return (VDict rep)
    ∧ dom rep = list_to_set (Meta_fields BotSettingSerializer).
Proof.
  apply (@representation_keys plain_fields [] BotSettingSerializer bot_setting).
  - discriminate.
  - discriminate.
  - intros f [->|[->|[]%elem_of_nil]%elem_of_cons]%elem_of_cons; by eexists.
Defined.

Lemma expanded_representation_witness :
  ∃ rep', @to_representation plain_fields two_users ExpandedInfractionSerializer
            superstar_infraction
          = Return (VDict rep')
    ∧ rep' !! "user" = Some (VDict (instance_of (user_row 5 "lemon")))
    ∧ rep' !! "actor" = Some (VDict (instance_of (user_row 9 "joe")))
    ∧ (∀ k, k ≠ "user" → k ≠ "actor" → rep' !! k = superstar_infraction !! k)
    ∧ dom rep' = dom superstar_infraction.
Proof.
  apply (@expanded_representation plain_fields two_users superstar_infraction
           superstar_infraction 5 9 (user_row 5 "lemon") (user_row 9 "joe"));
    reflexivity.
Defined.

Lemma expanded_missing_user_witness :
  @to_representation plain_fields [user_row 9 "joe"] ExpandedInfractionSerializer
    superstar_infraction
  = Raise (DoesNotExist "User").
Proof.
  apply (@expanded_missing_user plain_fields [user_row 9 "joe"]
           superstar_infraction superstar_infraction 5).
  - reflexivity.
  - reflexivity.
  - intros r ->%list_elem_of_singleton _. discriminate.
Defined.

Lemma validated_attrs_within_fields_witness :
  "name" ∈ Meta_fields BotSettingSerializer
  ∧ @read_only plain_fields BotSettingSerializer "name" = false.
Proof.
  apply (@validated_attrs_within_fields plain_fields BotSettingSerializer
           (VDict (<["secret" := VInt 1]> bot_setting)) bot_setting "name").
  - reflexivity.
  - by eexists.
Defined.

(* ===================================================================== *)
(** * What validation returns, and when the round trip holds *)
(* ===================================================================== *)

Section validation_outcomes.
Context `{!Fields}.
Implicit Types instance ret data rep : gmap string pyval.

Lemma Meta_fields_NoDup (s : serializer) : NoDup (Meta_fields s).
Proof. destruct s; apply (bool_decide_unpack _); by vm_compute. Qed.

(** What the loop over the fields leaves under each key: a writable
    declared field contributes its validated value or its messages, and
    nothing else is touched. *)
Lemma internalise_fields_spec (s : serializer) data (fields : list string) ret
    (errors : gmap string error_detail) :
  NoDup fields →
  (∀ k, (internalise_fields s data fields ret errors).1 !! k
        = if decide (k ∈ fields ∧ read_only s k = false)
          then match field_run_validation s k (data !! k) with
               | Validated v => Some v
               | _ => ret !! k
               end
          else ret !! k)
  ∧ (∀ k, (internalise_fields s data fields ret errors).2 !! k
          = if decide (k ∈ fields ∧ read_only s k = false)
            then match field_run_validation s k (data !! k) with
                 | Invalid messages => Some (ErrorList messages)
                 | _ => errors !! k
                 end
            else errors !! k).
Proof.
  intros Hnd. revert ret errors.
  induction Hnd as [|f fields Hf Hnd IH]; intros ret errors.
  { split; intros k; rewrite decide_False; try done;
      by intros [[]%not_elem_of_nil _]. }
  assert (Hother : ∀ k, k ≠ f →
            (k ∈ f :: fields ∧ read_only s k = false)
            ↔ (k ∈ fields ∧ read_only s k = false)).
  { intros k Hne. rewrite elem_of_cons. tauto. }
  assert (Hhere : ∀ P : Prop, ¬ (f ∈ fields ∧ P)) by (intros P [? _]; done).
  simpl. destruct (read_only s f) eqn:Hro.
  - assert (Hskipped : ¬ (f ∈ f :: fields ∧ read_only s f = false))
      by (rewrite Hro; by intros [_ ?]).
    destruct (IH ret errors) as [Hret Herr].
    split; intros k; rewrite ?Hret, ?Herr;
      (destruct (decide (k = f)) as [->|Hne];
       [by rewrite !decide_False by (done || apply Hhere)
       |by apply decide_ext; rewrite Hother]).
  - assert (Hfirst : f ∈ f :: fields ∧ read_only s f = false)
      by (split; [apply list_elem_of_here|done]).
    destruct (field_run_validation s f (data !! f)) as [v| |messages] eqn:Hfrv.
    + destruct (IH (<[f := v]> ret) errors) as [Hret Herr].
      split; intros k; rewrite ?Hret, ?Herr;
        (destruct (decide (k = f)) as [->|Hne];
         [rewrite decide_False, decide_True, Hfrv by (done || apply Hhere);
          by rewrite ?lookup_insert_eq
         |rewrite ?lookup_insert_ne by done;
          by apply decide_ext; rewrite Hother]).
    + destruct (IH ret errors) as [Hret Herr].
      split; intros k; rewrite ?Hret, ?Herr;
        (destruct (decide (k = f)) as [->|Hne];
         [by rewrite decide_False, decide_True, Hfrv by (done || apply Hhere)
         |by apply decide_ext; rewrite Hother]).
    + destruct (IH ret (<[f := ErrorList messages]> errors)) as [Hret Herr].
      split; intros k; rewrite ?Hret, ?Herr;
        (destruct (decide (k = f)) as [->|Hne];
         [rewrite decide_False, decide_True, Hfrv by (done || apply Hhere);
          by rewrite ?lookup_insert_eq
         |rewrite ?lookup_insert_ne by done;
          by apply decide_ext; rewrite Hother]).
Qed.




(** What validation returns under a writable declared field is what the
    field made of the value the payload holds under its key. *)
Lemma run_validation_returns (s : serializer) (m attrs : gmap string pyval)
    (f : string) :
  run_validation s (VDict m) = Return attrs →
  f ∈ Meta_fields s → read_only s f = false →
  attrs !! f = match field_run_validation s f (m !! f) with
               | Validated v => Some v
               | _ => None
               end.
Proof.
  unfold run_validation, to_internal_value. intros Hrun Hf Hro.
  destruct (internalise_fields_spec s m (Meta_fields s) ∅ ∅ (Meta_fields_NoDup s))
    as [Hret _].
  destruct (internalise_fields s m (Meta_fields s) ∅ ∅) as [ret errors].
  case_bool_decide; [|discriminate]. simpl in *.
  destruct (validate_cases s ret) as [Hv|[e Hv]]; rewrite Hv in Hrun;
    [|discriminate].
  injection Hrun as <-. rewrite Hret, decide_True by done.
  by rewrite lookup_empty.
Qed.


(** The expanded representation does not round-trip on its own: validating
    it back returns the stored attributes only if the [user] field turns
    the nested representation of a user back into the stored value. *)
Lemma round_trip_expanded_needs_user (db : database) instance rep'
    (user_data : gmap string pyval) (v : pyval) :
  to_representation db ExpandedInfractionSerializer instance
  = Return (VDict rep') →
  rep' !! "user" = Some (VDict user_data) →
  instance !! "user" = Some v →
  read_only ExpandedInfractionSerializer "user" = false →
  round_trip db ExpandedInfractionSerializer instance
  = Return (writable_attrs ExpandedInfractionSerializer instance) →
  field_run_validation ExpandedInfractionSerializer "user"
    (Some (VDict user_data)) = Validated v.
Proof.
  intros Hrep Huser Hv Hro. unfold round_trip.
  rewrite Hrep, result_bind_Return. intros Hrun.
  assert (Hf : "user" ∈ Meta_fields ExpandedInfractionSerializer).
  { simpl. rewrite !elem_of_cons. tauto. }
  pose proof (run_validation_returns _ rep' _ "user" Hrun Hf Hro) as Hback.
  rewrite writable_attrs_lookup, decide_True, Hv, Huser in Hback by done.
  destruct (field_run_validation _ _ _); congruence.
Qed.

End validation_outcomes.



(** With fields that accept whatever they receive, the round trip of an
    expanded infraction returns the nested user under [user], not the
    stored key. *)
Lemma round_trip_expanded_infraction :
  @round_trip plain_fields two_users ExpandedInfractionSerializer
    superstar_infraction
  ≠ Return (@writable_attrs plain_fields ExpandedInfractionSerializer
              superstar_infraction).
Proof.
  intros Hrun.
  pose proof (@round_trip_expanded_needs_user plain_fields two_users
                superstar_infraction _ (instance_of (user_row 5 "lemon")) (VInt 5)
                expanded_infraction_scenario eq_refl eq_refl eq_refl Hrun) as Hback.
  discriminate Hback.
Qed.
